(** * approute: one Flask view serving HTML forms and JSON clients

    A shallow embedding of [approute/__init__.py]: the content negotiator
    [_is_json], the helper [category_response] and the dispatch methods of
    the class [AppRouteView], with the properties of the specification
    stated over them.

    Python dictionaries with string keys are finite maps ([gmap string _]).
    The ambient Flask [request], the session's queue of flashed messages
    and Python exceptions are threaded through a small reader, state and
    error monad [M]. *)

From Stdlib Require Import ZArith Ascii String Sorted.
From stdpp Require Import base option list strings gmap fin_maps.

Local Open Scope string_scope.

(** ** Python values *)

(** The values that travel through the module: what [request.json] yields,
    what [populate] and [handle_post] return inside their dictionaries and
    what [jsonify] is given. *)
#[local] Set Warnings "-register-all".
Inductive value :=
  | VNone
  | VBool (b : bool)
  | VInt (n : Z)
  | VStr (s : string)
  | VList (l : list value)
  | VDict (d : gmap string value).

(** [x is None] *)
Definition is_None (v : value) : bool :=
  match v with VNone => true | _ => false end.

(** [k in d] for a dictionary [d] *)
Definition contains (k : string) (d : gmap string value) : bool :=
  match d !! k with Some _ => true | None => false end.

(** [d.get(k, dflt)] *)
Definition dict_get (k : string) (dflt : value) (d : gmap string value) : value :=
  default dflt (d !! k).

(** ** Python string operations used by the module and by Werkzeug *)

Module PyStr.

(** [c.lower()] on one ASCII character *)
Definition lower_ascii (c : ascii) : ascii :=
  let n := nat_of_ascii c in
  if (65 <=? n)%nat && (n <=? 90)%nat then ascii_of_nat (n + 32) else c.

(** [s.lower()] *)
Fixpoint lower (s : string) : string :=
  match s with
  | EmptyString => EmptyString
  | String c rest => String (lower_ascii c) (lower rest)
  end.

(** [s.startswith(p)] *)
Definition startswith (p s : string) : bool := String.prefix p s.

(** [s.endswith(p)] *)
Definition endswith (p s : string) : bool :=
  let n := String.length s in
  let k := String.length p in
  (k <=? n)%nat && String.eqb (String.substring (n - k) k s) p.

(** [s.split(sep)] for a separator of one character: never empty, one
    more field than there are separators. *)
Fixpoint split (sep : ascii) (s : string) : list string :=
  match s with
  | EmptyString => [EmptyString]
  | String c rest =>
      if Ascii.eqb c sep then EmptyString :: split sep rest
      else match split sep rest with
           | [] => [String c EmptyString]
           | field :: fields => String c field :: fields
           end
  end.

(** [s.split(sep, 1)]: cut at the first separator only; [None] stands
    for the one-element list Python returns when [sep] does not occur. *)
Fixpoint split1 (sep : ascii) (s : string) : option (string * string) :=
  match s with
  | EmptyString => None
  | String c rest =>
      if Ascii.eqb c sep then Some (EmptyString, rest)
      else match split1 sep rest with
           | Some (l, r) => Some (String c l, r)
           | None => None
           end
  end.

(** [sep in s] for a one-character [sep] *)
Fixpoint has_char (sep : ascii) (s : string) : bool :=
  match s with
  | EmptyString => false
  | String c rest => Ascii.eqb c sep || has_char sep rest
  end.

(** ["%s|%s" % (a, b)] for two strings *)
Definition format_bar (a b : string) : string := a ++ "|" ++ b.

End PyStr.

(** ** The request *)

(** The exceptions that can leave a dispatch: the two the module's own code
    raises, the one Flask raises for a body that is not JSON, the ones a
    call of [render_template] raises (Python's [TypeError] for a keyword
    that collides with a parameter, Jinja's [TemplatesNotFound] for no
    name and [TemplateNotFound] for a name the loader does not know), and
    whatever an overriding method raises. *)
Inductive exn :=
  | NotImplementedError
  | AttributeError (attr : string)
  | BadRequest
  | TypeError
  | TemplatesNotFound
  | TemplateNotFound (name : string)
  | Raised (what : string).

(** A call returns a value or raises. *)
Inductive outcome (A : Type) :=
  | Return (a : A)
  | Raise (e : exn).
Arguments Return {A} a.
Arguments Raise {A} e.

(** The context of one request: what the module reads from
    [flask.request] and, for [render_template], from the application that
    serves it.
    - [mimetype]: the media type of the Content-Type header, lower-cased
      and without parameters, the empty string when the header is missing;
    - [accept_mimetypes]: the media ranges of the Accept header, each with
      its quality in thousandths and its other parameters left in place, in
      the order of the header; the empty list when the header is missing;
    - [json]: the outcome of evaluating [request.json], a value or Flask's
      [BadRequest] for a malformed body;
    - [form]: the fields of [request.form];
    - [templates]: the names of the templates the application's loader
      finds. *)
Record Request := {
  mimetype : string;
  accept_mimetypes : list (string * Z);
  json : outcome value;
  form : list (string * string);
  templates : list string;
}.

(** [request.is_json] (Werkzeug): the media type is [application/json] or
    [application/*+json]. *)
Definition is_json (request : Request) : bool :=
  let mt := mimetype request in
  String.eqb mt "application/json"
  || (PyStr.startswith "application/" mt && PyStr.endswith "+json" mt).

(** ** Werkzeug's Accept negotiation *)

(** [MIMEAccept] as Werkzeug has it since it ranks ranges by specificity:
    the ranges are sorted when the object is built, each candidate is
    paired with the most specific range that covers it, and the candidate
    of the highest quality wins, the more specific range breaking a tie. *)

Module Accept.

(** [\s] of Python's [re] on the characters a header can hold: the space,
    the controls from tab to carriage return and the four separators
    before the space, and the two Latin-1 spaces. *)
Definition is_space (c : ascii) : bool :=
  let n := nat_of_ascii c in
  (n =? 32)%nat || ((9 <=? n)%nat && (n <=? 13)%nat)
  || ((28 <=? n)%nat && (n <=? 31)%nat) || (n =? 133)%nat || (n =? 160)%nat.

(** Does the text start with optional white space and then a semicolon:
    the test for a match of the semicolon alternative at this point. *)
Fixpoint ws_then_semi (s : string) : bool :=
  match s with
  | EmptyString => false
  | String c rest =>
      if Ascii.eqb c ";" then true
      else if is_space c then ws_then_semi rest
      else false
  end.

(** Adding a character to the field being read. *)
Definition cons_head (c : ascii) (fields : list string) : list string :=
  match fields with
  | [] => [String c EmptyString]
  | field :: fields' => String c field :: fields'
  end.

(** Where [_mime_split_re.split] is in the text: inside a field, inside the
    white space that leads to a semicolon, or inside the white space that
    follows one. *)
Inductive split_mode := InField | BeforeSemi | AfterSemi.

(** [_mime_split_re.split(s)], whose pattern is a slash or a semicolon
    with any white space on either side: the text is cut at every slash and
    at every semicolon together with the white space around it. *)
Fixpoint mime_split (mode : split_mode) (s : string) : list string :=
  match s with
  | EmptyString => [EmptyString]
  | String c rest =>
      match mode with
      | BeforeSemi =>
          if Ascii.eqb c ";" then EmptyString :: mime_split AfterSemi rest
          else mime_split BeforeSemi rest
      | _ =>
          if match mode with AfterSemi => is_space c | _ => false end
          then mime_split AfterSemi rest
          else if Ascii.eqb c "/" then EmptyString :: mime_split InField rest
          else if Ascii.eqb c ";" then EmptyString :: mime_split AfterSemi rest
          else if is_space c && ws_then_semi rest then mime_split BeforeSemi rest
          else cons_head c (mime_split InField rest)
      end
  end.

(** [_normalize_mime(value)]: lower-case, then split. *)
Definition normalize_mime (value : string) : list string :=
  mime_split InField (PyStr.lower value).

(** [sorted(params)] on strings, by insertion. *)
Fixpoint insert_param (p : string) (sorted : list string) : list string :=
  match sorted with
  | [] => [p]
  | p' :: rest =>
      if String.leb p p' then p :: sorted else p' :: insert_param p rest
  end.

Definition sorted_params (params : list string) : list string :=
  foldr insert_param [] params.

(** [MIMEAccept._value_matches(value, item)]: does the media range [item]
    sent by the client cover the media type [value] offered by the
    application.  A range without a slash covers nothing.  Werkzeug raises
    [ValueError] for an application value without a slash or of the form
    [*/x]; the two values this module offers are well formed
    ([MIMETYPES_well_formed] below), and here such a value matches
    nothing. *)
Definition value_matches (value item : string) : bool :=
  if negb (PyStr.has_char "/" item) then false
  else
    match normalize_mime value, normalize_mime item with
    | value_type :: value_subtype :: value_params,
      item_type :: item_subtype :: item_params =>
        if String.eqb value_type "*" && negb (String.eqb value_subtype "*")
        then false
        else if String.eqb item_type "*" && negb (String.eqb item_subtype "*")
        then false
        else
          ((String.eqb item_type "*" && String.eqb item_subtype "*")
           || (String.eqb value_type "*" && String.eqb value_subtype "*"))
          || (String.eqb item_type value_type
              && (String.eqb item_subtype "*"
                  || String.eqb value_subtype "*"
                  || (String.eqb item_subtype value_subtype
                      && bool_decide (sorted_params item_params
                                      = sorted_params value_params))))
    | _, _ => false
    end.

(** [MIMEAccept._specificity(value)]: one flag for each part of the range,
    raised when the part is not a star; flags are numbers so that the
    tuple [(-1,)] the search starts from fits in. *)
Definition specificity (value : string) : list Z :=
  map (fun part => if String.eqb part "*" then 0%Z else 1%Z)
      (mime_split InField value).

(** Python's comparison of two tuples of numbers. *)
Fixpoint tuple_compare (a b : list Z) : comparison :=
  match a, b with
  | [], [] => Eq
  | [], _ :: _ => Lt
  | _ :: _, [] => Gt
  | x :: a', y :: b' =>
      match Z.compare x y with
      | Eq => tuple_compare a' b'
      | c => c
      end
  end.

(** The sort key of one range, [(specificity, quality)], and its order. *)
Definition key (range : string * Z) : list Z * Z :=
  (specificity (fst range), snd range).

Definition key_compare (k1 k2 : list Z * Z) : comparison :=
  match tuple_compare (fst k1) (fst k2) with
  | Eq => Z.compare (snd k1) (snd k2)
  | c => c
  end.

Definition key_ltb (k1 k2 : list Z * Z) : bool :=
  match key_compare k1 k2 with Lt => true | _ => false end.

(** [sorted(values, key=..., reverse=True)] of [Accept.__init__]: the most
    specific range first and, among equally specific ones, the one of the
    highest quality; ranges with equal keys keep the order of the header. *)
Fixpoint insert_range (range : string * Z) (sorted : list (string * Z))
    : list (string * Z) :=
  match sorted with
  | [] => [range]
  | range' :: rest =>
      if key_ltb (key range) (key range')
      then range' :: insert_range range rest
      else range :: sorted
  end.

Definition sort_ranges (values : list (string * Z)) : list (string * Z) :=
  foldr insert_range [] values.

(** [Accept._best_single_match(match)]: the first range, in sorted order,
    that covers the candidate. *)
Definition best_single_match (server_item : string)
    (client : list (string * Z)) : option (string * Z) :=
  find (fun range => value_matches server_item (fst range)) client.

(** The loop of [Accept.best_match] over the application's candidates. *)
Fixpoint best_match_from (matches : list string) (client : list (string * Z))
    (best_quality : Z) (best_specificity : list Z) (result : option string)
    : option string :=
  match matches with
  | [] => result
  | server_item :: rest =>
      match best_single_match server_item client with
      | None =>
          best_match_from rest client best_quality best_specificity result
      | Some (client_item, quality) =>
          if (quality <=? 0)%Z || (quality <? best_quality)%Z
          then best_match_from rest client best_quality best_specificity result
          else if (best_quality <? quality)%Z
                  || match tuple_compare best_specificity
                             (specificity client_item) with
                     | Lt => true
                     | _ => false
                     end
          then best_match_from rest client quality (specificity client_item)
                 (Some server_item)
          else best_match_from rest client best_quality best_specificity result
      end
  end.

(** [accept.best_match(matches)] with [default=None] on the [Accept] built
    from the header's ranges; the quality [-1] and the specificity [(-1,)]
    the search starts from are [-1000] thousandths and [[-1]]. *)
Definition best_match (client : list (string * Z)) (matches : list string)
    : option string :=
  best_match_from matches (sort_ranges client) (-1000)%Z [(-1)%Z] None.

End Accept.

(** ** The negotiator *)

Definition MIMETYPES : list string := ["application/json"; "text/html"].

(** [_is_json()]; the comparison [best == "application/json"] is false for
    [None]. *)
Definition _is_json (request : Request) : bool :=
  if is_json request then true
  else
    let best := Accept.best_match (accept_mimetypes request) MIMETYPES in
    match best with
    | Some m => String.eqb m "application/json"
    | None => false
    end.

(** ** Effects: the ambient request, the flash queue, exceptions *)

(** One flashed message as Flask stores it in the session: the pair
    [(category, message)] that [flash(message, category)] appends. *)
Definition flashed : Type := string * string.

(** A computation reads the request, may append to the queue of flashed
    messages and either returns or raises. *)
Definition M (A : Type) : Type :=
  Request -> list flashed -> outcome A * list flashed.

#[global] Instance M_ret : MRet M :=
  fun A a _ queue => (Return a, queue).

#[global] Instance M_bind : MBind M :=
  fun A B k m request queue =>
    match m request queue with
    | (Return a, queue') => k a request queue'
    | (Raise e, queue') => (Raise e, queue')
    end.

(** [raise e] *)
Definition raise {A : Type} (e : exn) : M A :=
  fun _ queue => (Raise e, queue).

(** Reading a property of the global [request]. *)
Definition ask {A : Type} (f : Request -> A) : M A :=
  fun request queue => (Return (f request), queue).

(** Evaluating [request.json], which raises for a malformed body. *)
Definition request_json : M value :=
  fun request queue => (json request, queue).

(** [flash(message, category)] *)
Definition flash (message category : string) : M unit :=
  fun _ queue => (Return tt, (queue ++ [(category, message)])%list).

(** ** [category_response] *)

(** [category_response(message, status_code, category, payload,
    flash_category)]; an argument left out in Python is passed here as its
    default ([200], [None], [None], ["notification"]). *)
Definition category_response (message : string) (status_code : Z)
    (category : option string) (payload : value) (flash_category : string)
    : M (gmap string value) :=
  is_js ← ask _is_json;
  if is_js : bool then
    if negb (is_None payload) then
      mret (<["payload" := payload]> (<["status_code" := VInt status_code]> ∅))
    else
      mret (<["message" := VStr message]> (<["status_code" := VInt status_code]> ∅))
  else
    let category :=
      match category with
      | Some c => c
      | None =>
          if (500 <=? status_code)%Z then "danger"
          else if (400 <=? status_code)%Z then "warning"
          else "success"
      end in
    _ ← flash (PyStr.format_bar message category) flash_category;
    mret ∅.

(** [response_manager(category)]: [category_response] with the flash
    category fixed. *)
Definition response_manager (category : string)
    : string -> Z -> option string -> value -> M (gmap string value) :=
  fun message status_code cat payload =>
    category_response message status_code cat payload category.

Definition response := response_manager "notification".

(** ** The class [AppRouteView] *)

(** The positional and keyword arguments Flask passes to [get] and [post]
    from the URL rule. *)
Record call_args := {
  positional : list value;
  keywords : gmap string value;
}.

(** What [handle_post] receives as [values]: [request.json] on the JSON
    path, [request.form] on the HTML path. *)
Inductive values :=
  | JsonValues (v : value)
  | FormValues (fields : list (string * string)).

(** What a dispatch method hands back to Flask, kept as the call that
    builds it:
    - [JsonResponse body status] is the pair [(jsonify(body), status)];
    - [Redirect endpoint args] is [redirect(url_for(endpoint, **args))];
    - [Rendered name context] is the document [render_template(name,
      **context)] returns for a template the loader finds. *)
Inductive http_response :=
  | JsonResponse (body : value) (status : value)
  | Redirect (endpoint : string) (args : gmap string value)
  | Rendered (name : string) (context : gmap string value).

(** An instance of [AppRouteView] or of a subclass: the class attributes
    and, for each overridable method, the subclass's definition when there
    is one.  The class declares [template_name], [redirect_to] and
    [redirect_args]; it declares no attribute [route], which an instance
    has only when its subclass defines it. *)
Record AppRouteView := {
  template_name : option string;
  redirect_to : option string;
  redirect_args : gmap string value;
  route : option string;
  get_template_name_override : option (M (option string));
  handle_post_override : option (values -> call_args -> M (gmap string value));
  populate_override : option (call_args -> M (gmap string value));
}.

(** The class as written, nothing overridden. *)
Definition base : AppRouteView := {|
  template_name := None;
  redirect_to := None;
  redirect_args := ∅;
  route := None;
  get_template_name_override := None;
  handle_post_override := None;
  populate_override := None;
|}.

(** [self.route] *)
Definition self_route (self : AppRouteView) : M string :=
  match route self with
  | Some r => mret r
  | None => raise (AttributeError "route")
  end.

Definition get_template_name (self : AppRouteView) : M (option string) :=
  match get_template_name_override self with
  | Some method => method
  | None => mret (template_name self)
  end.

(** [flask.render_template(template_name_or_list, **context)]: a context
    key named like the parameter is a [TypeError] at the call; no name
    ([None]) selects from no template; a name is looked up by the loader. *)
Definition render_template (name : option string)
    (context : gmap string value) : M http_response :=
  if contains "template_name_or_list" context then raise TypeError
  else
    match name with
    | None => raise TemplatesNotFound
    | Some n =>
        known ← ask templates;
        if existsb (String.eqb n) known then mret (Rendered n context)
        else raise (TemplateNotFound n)
    end.

(** [_render_template(self, **context)]; a context key [self] collides
    with the method's own parameter when the method is called. *)
Definition _render_template (self : AppRouteView)
    (context : gmap string value) : M http_response :=
  if contains "self" context then raise TypeError
  else
    name ← get_template_name self;
    render_template name context.

Definition handle_post (self : AppRouteView) (vals : values)
    (args : call_args) : M (gmap string value) :=
  match handle_post_override self with
  | Some method => method vals args
  | None => raise NotImplementedError
  end.

(** [post_json]; the test ["payload" in result] and the subscript
    [result["payload"]] are the one lookup. *)
Definition post_json (self : AppRouteView) (args : call_args) : M http_response :=
  vals ← request_json;
  result ← handle_post self (JsonValues vals) args;
  match result !! "payload" with
  | Some payload =>
      mret (JsonResponse payload (dict_get "status_code" (VInt 200) result))
  | None =>
      mret (JsonResponse
              (VDict {[ "message" := dict_get "message" (VStr "no output") result ]})
              (dict_get "status_code" (VInt 200) result))
  end.

Definition post_html (self : AppRouteView) (args : call_args) : M http_response :=
  vals ← ask form;
  _ ← handle_post self (FormValues vals) args;
  match redirect_to self with
  | Some target => mret (Redirect target (redirect_args self))
  | None =>
      endpoint ← self_route self;
      mret (Redirect endpoint (redirect_args self))
  end.

Definition populate (self : AppRouteView) (args : call_args)
    : M (gmap string value) :=
  match populate_override self with
  | Some method => method args
  | None => mret ∅
  end.

Definition get_json (self : AppRouteView) (args : call_args) : M http_response :=
  vals ← populate self args;
  mret (JsonResponse (VDict vals) (dict_get "status_code" (VInt 200) vals)).

Definition get_html (self : AppRouteView) (args : call_args) : M http_response :=
  context ← populate self args;
  _render_template self context.

Definition get (self : AppRouteView) (args : call_args) : M http_response :=
  is_js ← ask _is_json;
  if is_js : bool then get_json self args else get_html self args.

Definition post (self : AppRouteView) (args : call_args) : M http_response :=
  is_js ← ask _is_json;
  if is_js : bool then post_json self args else post_html self args.

(** ** Vocabulary of the properties *)

(** A JSON body carries key [k]: it is an object with an entry for [k]. *)
Definition carries (k : string) (body : value) : bool :=
  match body with
  | VDict d => contains k d
  | _ => false
  end.

(** Exactly one of the keys [payload] and [message]. *)
Definition exactly_one_of_payload_message (body : value) : bool :=
  xorb (carries "payload" body) (carries "message" body).

(** Requests and handlers used as concrete inputs. *)

(** The templates of the application the concrete requests go to. *)
Definition app_templates : list string := ["start.html"; "mobile.html"].

Definition browser_request : Request := {|
  mimetype := "application/x-www-form-urlencoded";
  accept_mimetypes := [("text/html", 1000%Z)];
  json := Return VNone;
  form := [("device_name", "lamp")];
  templates := app_templates;
|}.

Definition api_request : Request := {|
  mimetype := "application/json";
  accept_mimetypes := [("application/json", 1000%Z)];
  json := Return (VDict {[ "device_name" := VStr "lamp" ]});
  form := [];
  templates := app_templates;
|}.

Definition no_args : call_args := {| positional := []; keywords := ∅ |}.

(** A subclass that overrides [handle_post] alone, answering through
    [response] as the class's documentation shows. *)
Definition Saver : AppRouteView := {|
  template_name := Some "save.html";
  redirect_to := None;
  redirect_args := ∅;
  route := None;
  get_template_name_override := None;
  handle_post_override :=
    Some (fun _ _ => response "Saved" 200 None (VDict {[ "id" := VInt 7 ]}));
  populate_override := None;
|}.

(** [Index] of [docs/examples/start.py]. *)
Definition Index : AppRouteView := {|
  template_name := Some "start.html";
  redirect_to := None;
  redirect_args := ∅;
  route := None;
  get_template_name_override := None;
  handle_post_override := None;
  populate_override :=
    Some (fun _ =>
      mret (<["message" := VStr "Hello World!"]>
             (<["list" := VList [VStr "eggs"; VStr "milk"; VStr "bread"]]> ∅)));
|}.

(** A subclass whose [handle_post] returns the empty envelope. *)
Definition Silent : AppRouteView := {|
  template_name := None;
  redirect_to := Some "index";
  redirect_args := ∅;
  route := None;
  get_template_name_override := None;
  handle_post_override := Some (fun _ _ => mret ∅);
  populate_override := None;
|}.

(** The invariant on JSON responses as the specification words it: every
    JSON body that [get] or [post] answers with carries exactly one of the
    keys [payload] and [message]. *)
Definition json_bodies_carry_exactly_one : Prop :=
  forall self args request queue body status queue',
    _is_json request = true ->
    get self args request queue = (Return (JsonResponse body status), queue')
    \/ post self args request queue = (Return (JsonResponse body status), queue') ->
    exactly_one_of_payload_message body = true.

(** The category lines 50 to 55 of [category_response] settle on: the one
    given, or the one derived from the status code. *)
Definition flash_category_of (category : option string) (status_code : Z)
    : string :=
  match category with
  | Some c => c
  | None =>
      if (500 <=? status_code)%Z then "danger"
      else if (400 <=? status_code)%Z then "warning"
      else "success"
  end.

(** Further requests and subclasses used as concrete inputs. *)

(** A client that sends [Accept: */*] and no body. *)
Definition wildcard_request : Request := {|
  mimetype := EmptyString;
  accept_mimetypes := [("*/*", 1000%Z)];
  json := Return VNone;
  form := [];
  templates := app_templates;
|}.

(** A JSON request whose body does not parse. *)
Definition malformed_request : Request := {|
  mimetype := "application/json";
  accept_mimetypes := [("application/json", 1000%Z)];
  json := Raise BadRequest;
  form := [];
  templates := app_templates;
|}.

(** [Saver] with a redirect target, and with a [route] attribute besides. *)
Definition SaverHome : AppRouteView := {|
  template_name := Some "save.html";
  redirect_to := Some "index";
  redirect_args := {[ "tab" := VStr "devices" ]};
  route := Some "save";
  get_template_name_override := None;
  handle_post_override :=
    Some (fun _ _ => response "Saved" 200 None (VDict {[ "id" := VInt 7 ]}));
  populate_override := None;
|}.

(** A subclass whose [handle_post] flashes a refusal and then raises. *)
Definition Refusing : AppRouteView := {|
  template_name := None;
  redirect_to := Some "index";
  redirect_args := ∅;
  route := None;
  get_template_name_override := None;
  handle_post_override :=
    Some (fun _ _ =>
            _ ← response "Denied" 403 None VNone;
            raise (Raised "Forbidden"));
  populate_override := None;
|}.

(** A subclass whose [populate] raises and whose template name is chosen
    by an overriding [get_template_name]. *)
Definition Broken : AppRouteView := {|
  template_name := Some "static.html";
  redirect_to := None;
  redirect_args := ∅;
  route := None;
  get_template_name_override := Some (mret (Some "dynamic.html"));
  handle_post_override := None;
  populate_override := Some (fun _ => raise (Raised "database down"));
|}.

(** [Index] with a [get_template_name] that picks the template itself. *)
Definition DynamicIndex : AppRouteView := {|
  template_name := Some "start.html";
  redirect_to := None;
  redirect_args := ∅;
  route := None;
  get_template_name_override := Some (mret (Some "mobile.html"));
  handle_post_override := None;
  populate_override :=
    Some (fun _ => mret {[ "message" := VStr "Hello World!" ]});
|}.

(** A form POST with the Accept header a browser sends. *)
Definition chrome_request : Request := {|
  mimetype := "application/x-www-form-urlencoded";
  accept_mimetypes :=
    [("text/html", 1000%Z); ("application/xhtml+xml", 1000%Z);
     ("application/xml", 900%Z); ("*/*", 800%Z)];
  json := Return VNone;
  form := [("device_name", "lamp")];
  templates := app_templates;
|}.

(** * Properties *)

Local Open Scope list_scope.

(** ** Running the monad *)

Lemma bind_return {A B : Type} (m : M A) (k : A -> M B) request queue a queue' :
  m request queue = (Return a, queue') ->
  (m ≫= k) request queue = k a request queue'.
Proof. intros Hm. unfold mbind, M_bind. now rewrite Hm. Qed.

Lemma bind_raise {A B : Type} (m : M A) (k : A -> M B) request queue e queue' :
  m request queue = (Raise e, queue') ->
  (m ≫= k) request queue = (Raise e, queue').
Proof. intros Hm. unfold mbind, M_bind. now rewrite Hm. Qed.

Lemma ask_run {A : Type} (f : Request -> A) request queue :
  ask f request queue = (Return (f request), queue).
Proof. reflexivity. Qed.

Ltac run_bind H := rewrite (bind_return _ _ _ _ _ _ H).
Ltac run_ask := rewrite (bind_return _ _ _ _ _ _ (ask_run _ _ _)).

(** ** The negotiator *)

Lemma MIMETYPES_well_formed :
  Forall (fun m => exists t s, Accept.normalize_mime m = [t; s] /\ t <> "*")
         MIMETYPES.
Proof.
  repeat constructor.
  - exists "application", "json". split; [reflexivity | congruence].
  - exists "text", "html". split; [reflexivity | congruence].
Qed.

Lemma is_json_short_circuit request :
  is_json request = true -> _is_json request = true.
Proof. intros H. unfold _is_json. now rewrite H. Qed.

Lemma is_json_by_accept request :
  is_json request = false ->
  _is_json request = true <->
  Accept.best_match (accept_mimetypes request) MIMETYPES = Some "application/json".
Proof.
  intros H. unfold _is_json. rewrite H.
  destruct (Accept.best_match _ _) as [m|]; [|split; discriminate].
  rewrite String.eqb_eq. split; congruence.
Qed.

Lemma best_match_only_json (q : Z) :
  (0 < q)%Z ->
  Accept.best_match [("application/json", q)] MIMETYPES = Some "application/json".
Proof.
  intros Hq. unfold Accept.best_match, MIMETYPES.
  change (Accept.sort_ranges [("application/json", q)])
    with [("application/json", q)].
  cbn [Accept.best_match_from].
  change (Accept.best_single_match "application/json" [("application/json", q)])
    with (Some ("application/json", q)).
  change (Accept.best_single_match "text/html" [("application/json", q)])
    with (@None (string * Z)).
  cbv iota beta.
  replace (q <=? 0)%Z with false by (symmetry; apply Z.leb_gt; lia).
  replace (q <? -1000)%Z with false by (symmetry; apply Z.ltb_ge; lia).
  replace (-1000 <? q)%Z with true by (symmetry; apply Z.ltb_lt; lia).
  reflexivity.
Qed.

Lemma best_match_only_html (q : Z) :
  Accept.best_match [("text/html", q)] MIMETYPES <> Some "application/json".
Proof.
  unfold Accept.best_match, MIMETYPES.
  change (Accept.sort_ranges [("text/html", q)]) with [("text/html", q)].
  cbn [Accept.best_match_from].
  change (Accept.best_single_match "application/json" [("text/html", q)])
    with (@None (string * Z)).
  change (Accept.best_single_match "text/html" [("text/html", q)])
    with (Some ("text/html", q)).
  cbv iota beta.
  destruct (_ || _); [discriminate|].
  destruct (_ || _); discriminate.
Qed.

Lemma best_match_no_header :
  Accept.best_match [] MIMETYPES = None.
Proof. reflexivity. Qed.

(** C1. A request whose Content-Type declares JSON is classified as JSON
    whatever it accepts.  Any other request is classified as JSON exactly
    when the best match of its Accept header over the candidates
    [application/json], [text/html] is [application/json]: it is JSON for
    [Accept: application/json], HTML for [Accept: text/html] and HTML
    without an Accept header. *)
Theorem negotiator_classification (request : Request) :
  MIMETYPES = ["application/json"; "text/html"]
  /\ (mimetype request = "application/json" -> _is_json request = true)
  /\ (is_json request = true -> _is_json request = true)
  /\ (is_json request = false ->
      (_is_json request = true <->
       Accept.best_match (accept_mimetypes request) MIMETYPES
       = Some "application/json")
      /\ (forall q, (0 < q)%Z ->
          accept_mimetypes request = [("application/json", q)] ->
          _is_json request = true)
      /\ (forall q, accept_mimetypes request = [("text/html", q)] ->
          _is_json request = false)
      /\ (accept_mimetypes request = [] -> _is_json request = false)).
Proof.
  split; [reflexivity|]. split; [|split].
  - intros Hmt. apply is_json_short_circuit. unfold is_json. now rewrite Hmt.
  - apply is_json_short_circuit.
  - intros Hct. pose proof (is_json_by_accept request Hct) as Hiff.
    split; [exact Hiff|]. split; [|split].
    + intros q Hq Hacc. apply Hiff. rewrite Hacc. now apply best_match_only_json.
    + intros q Hacc. apply not_true_is_false. intros Hjs.
      apply Hiff in Hjs. rewrite Hacc in Hjs. now apply best_match_only_html in Hjs.
    + intros Hacc. apply not_true_is_false. intros Hjs.
      apply Hiff in Hjs. rewrite Hacc in Hjs. discriminate.
Qed.

Lemma negotiator_classification_witness :
  _is_json api_request = true /\ _is_json browser_request = false.
Proof.
  split.
  - apply (proj1 (proj2 (negotiator_classification api_request))). reflexivity.
  - destruct (negotiator_classification browser_request) as (_ & _ & _ & H).
    destruct (H eq_refl) as (_ & _ & Hhtml & _).
    apply (Hhtml 1000%Z). reflexivity.
Defined.

(** ** [category_response] *)

Lemma category_response_json_mode message status_code category payload
    flash_category request queue :
  _is_json request = true ->
  category_response message status_code category payload flash_category
    request queue
  = (Return (if negb (is_None payload)
             then {[ "payload" := payload; "status_code" := VInt status_code ]}
             else {[ "message" := VStr message; "status_code" := VInt status_code ]}),
     queue).
Proof.
  intros Hjs. unfold category_response. run_ask. cbv beta. rewrite Hjs.
  destruct (negb (is_None payload)); unfold mret, M_ret;
    now rewrite !insert_empty.
Qed.

Lemma category_response_html_mode message status_code category payload
    flash_category request queue :
  _is_json request = false ->
  category_response message status_code category payload flash_category
    request queue
  = (Return ∅,
     queue ++ [(flash_category,
                PyStr.format_bar message
                  (match category with
                   | Some c => c
                   | None =>
                       if (500 <=? status_code)%Z then "danger"
                       else if (400 <=? status_code)%Z then "warning"
                       else "success"
                   end))]).
Proof.
  intros Hjs. unfold category_response. run_ask. cbv beta. now rewrite Hjs.
Qed.

(** C3. In JSON mode [category_response] returns exactly
    [{payload, status_code}] when a payload was given and exactly
    [{message, status_code}] otherwise, and leaves the queue of flashed
    messages as it was; [category_response("Saved", 200, payload={"id": 7})]
    returns exactly [{payload: {id: 7}, status_code: 200}]. *)
Theorem json_mode_envelope (request : Request) (queue : list flashed)
    (message : string) (status_code : Z) (category : option string)
    (payload : value) (flash_category : string) :
  _is_json request = true ->
  (payload <> VNone ->
   category_response message status_code category payload flash_category
     request queue
   = (Return {[ "payload" := payload; "status_code" := VInt status_code ]},
      queue))
  /\ (payload = VNone ->
      category_response message status_code category payload flash_category
        request queue
      = (Return {[ "message" := VStr message; "status_code" := VInt status_code ]},
         queue))
  /\ category_response "Saved" 200 None (VDict {[ "id" := VInt 7 ]})
       "notification" request queue
     = (Return {[ "payload" := VDict {[ "id" := VInt 7 ]};
                  "status_code" := VInt 200 ]},
        queue).
Proof.
  intros Hjs. split; [|split].
  - intros Hgiven. rewrite category_response_json_mode by assumption.
    destruct payload; [congruence | reflexivity ..].
  - intros ->. now rewrite category_response_json_mode by assumption.
  - now rewrite category_response_json_mode by assumption.
Qed.

Lemma json_mode_envelope_witness :
  category_response "Saved" 200 None (VDict {[ "id" := VInt 7 ]})
    "notification" api_request []
  = (Return {[ "payload" := VDict {[ "id" := VInt 7 ]};
               "status_code" := VInt 200 ]},
     []).
Proof.
  apply (json_mode_envelope api_request [] "Saved" 200 None
           (VDict {[ "id" := VInt 7 ]}) "notification").
  reflexivity.
Defined.

(** C4. In HTML mode [category_response] queues, on the channel, the
    message followed by a bar and the category, and returns the empty
    envelope; without an explicit category the category is ["danger"] from
    500 up, ["warning"] from 400 up and ["success"] below.
    [category_response("Failed", 500)] queues a ["danger"] notification and
    returns the empty envelope. *)
Theorem html_mode_notification (request : Request) (queue : list flashed)
    (message : string) (status_code : Z) (category : option string)
    (payload : value) (flash_category : string) :
  _is_json request = false ->
  (exists computed,
     category_response message status_code category payload flash_category
       request queue
     = (Return ∅, queue ++ [(flash_category, message +:+ "|" +:+ computed)])
     /\ (forall given, category = Some given -> computed = given)
     /\ (category = None ->
         ((500 <= status_code)%Z -> computed = "danger")
         /\ ((400 <= status_code < 500)%Z -> computed = "warning")
         /\ ((status_code < 400)%Z -> computed = "success")))
  /\ category_response "Failed" 500 None VNone flash_category request queue
     = (Return ∅, queue ++ [(flash_category, "Failed|danger")]).
Proof.
  intros Hhtml. split.
  - eexists. split; [now apply category_response_html_mode|]. split.
    + now intros given ->.
    + intros ->. split; [|split]; intros Hcode.
      * destruct (Z.leb_spec 500 status_code); [reflexivity | lia].
      * destruct (Z.leb_spec 500 status_code); [lia|].
        destruct (Z.leb_spec 400 status_code); [reflexivity | lia].
      * destruct (Z.leb_spec 500 status_code); [lia|].
        destruct (Z.leb_spec 400 status_code); [lia | reflexivity].
  - now rewrite category_response_html_mode by assumption.
Qed.

Lemma html_mode_notification_witness :
  category_response "Failed" 500 None VNone "notification" browser_request []
  = (Return ∅, [("notification", "Failed|danger")]).
Proof.
  apply (html_mode_notification browser_request [] "Failed" 500 None VNone
           "notification").
  reflexivity.
Defined.

(** ** The notification encoding *)

Lemma split_no_separator (sep : ascii) (s : string) :
  PyStr.has_char sep s = false -> PyStr.split sep s = [s].
Proof.
  induction s as [|c s IH]; [reflexivity|].
  cbn [PyStr.has_char PyStr.split]. intros H.
  apply orb_false_iff in H as [Hc Hs]. rewrite Hc, (IH Hs). reflexivity.
Qed.

(** Splitting [message|category] gives the two parts back whenever the
    message holds no bar. *)
Lemma split_format_bar (message category : string) :
  PyStr.has_char "|" message = false ->
  PyStr.has_char "|" category = false ->
  PyStr.split "|" (PyStr.format_bar message category) = [message; category].
Proof.
  intros Hm Hc. unfold PyStr.format_bar.
  induction message as [|c message IH].
  - change (PyStr.split "|" (String "|" category) = [EmptyString; category]).
    cbn [PyStr.split]. rewrite Ascii.eqb_refl.
    now rewrite (split_no_separator _ _ Hc).
  - cbn [PyStr.has_char] in Hm. apply orb_false_iff in Hm as [Hch Hm].
    change (PyStr.split "|" (String c (message +:+ "|" +:+ category))
            = [String c message; category]).
    cbn [PyStr.split]. rewrite Hch.
    now rewrite (IH Hm).
Qed.

(** C9. The notification that [category_response("Saved", 200)] queues in
    HTML mode is the single string ["Saved|success"], and splitting it on
    the bar gives the message ["Saved"] and the category ["success"] back
    unchanged. *)
Theorem notification_round_trip (request : Request) (queue : list flashed) :
  _is_json request = false ->
  exists text,
    category_response "Saved" 200 None VNone "notification" request queue
    = (Return ∅, queue ++ [("notification", text)])
    /\ text = "Saved|success"
    /\ PyStr.split "|" text = ["Saved"; "success"].
Proof.
  intros Hhtml. exists (PyStr.format_bar "Saved" "success"). split; [|split].
  - now rewrite category_response_html_mode by assumption.
  - reflexivity.
  - now apply split_format_bar.
Qed.

Lemma notification_round_trip_witness :
  exists text,
    category_response "Saved" 200 None VNone "notification" browser_request []
    = (Return ∅, [("notification", text)])
    /\ text = "Saved|success"
    /\ PyStr.split "|" text = ["Saved"; "success"].
Proof.
  apply (notification_round_trip browser_request []). reflexivity.
Defined.

(** ** Dispatch *)

Lemma post_json_mode self args request queue :
  _is_json request = true ->
  post self args request queue = post_json self args request queue.
Proof. intros Hjs. unfold post. run_ask. cbv beta. now rewrite Hjs. Qed.

Lemma post_html_mode self args request queue :
  _is_json request = false ->
  post self args request queue = post_html self args request queue.
Proof. intros Hhtml. unfold post. run_ask. cbv beta. now rewrite Hhtml. Qed.

Lemma get_json_mode self args request queue :
  _is_json request = true ->
  get self args request queue = get_json self args request queue.
Proof. intros Hjs. unfold get. run_ask. cbv beta. now rewrite Hjs. Qed.

Lemma request_json_run request queue vals :
  json request = Return vals ->
  request_json request queue = (Return vals, queue).
Proof. intros H. unfold request_json. now rewrite H. Qed.

(** What [post_json] answers once the body is parsed and [handle_post] has
    returned. *)
Lemma post_json_returns self args request queue vals result queue' :
  json request = Return vals ->
  handle_post self (JsonValues vals) args request queue = (Return result, queue') ->
  post_json self args request queue
  = (Return (JsonResponse
               (match result !! "payload" with
                | Some payload => payload
                | None =>
                    VDict {[ "message" :=
                               dict_get "message" (VStr "no output") result ]}
                end)
               (dict_get "status_code" (VInt 200) result)),
     queue').
Proof.
  intros Hbody Hhandle. unfold post_json.
  run_bind (request_json_run _ queue _ Hbody). run_bind Hhandle.
  now destruct (result !! "payload").
Qed.

(** What [post_html] does once [handle_post] has returned. *)
Lemma post_html_returns self args request queue result queue' :
  handle_post self (FormValues (form request)) args request queue
  = (Return result, queue') ->
  post_html self args request queue
  = match redirect_to self, route self with
    | Some target, _ => (Return (Redirect target (redirect_args self)), queue')
    | None, Some endpoint =>
        (Return (Redirect endpoint (redirect_args self)), queue')
    | None, None => (Raise (AttributeError "route"), queue')
    end.
Proof.
  intros Hhandle. unfold post_html. run_ask. run_bind Hhandle.
  unfold self_route. destruct (redirect_to self); [reflexivity|].
  now destruct (route self).
Qed.

Lemma get_json_returns self args request queue vals queue' :
  populate self args request queue = (Return vals, queue') ->
  get_json self args request queue
  = (Return (JsonResponse (VDict vals) (dict_get "status_code" (VInt 200) vals)),
     queue').
Proof. intros Hpop. unfold get_json. now run_bind Hpop. Qed.

Lemma dict_get_present k dflt (d : gmap string value) v :
  d !! k = Some v -> dict_get k dflt d = v.
Proof. intros H. unfold dict_get. now rewrite H. Qed.

Lemma dict_get_absent k dflt (d : gmap string value) :
  d !! k = None -> dict_get k dflt d = dflt.
Proof. intros H. unfold dict_get. now rewrite H. Qed.

(** A POST in HTML mode whose [handle_post] returns is answered by a
    redirect, and never by a rendered template or a JSON body, whenever the
    instance has a redirect target or a [route] attribute. *)
Lemma post_html_redirects self args request queue result queue' :
  _is_json request = false ->
  handle_post self (FormValues (form request)) args request queue
  = (Return result, queue') ->
  (forall target, redirect_to self = Some target ->
     post self args request queue
     = (Return (Redirect target (redirect_args self)), queue'))
  /\ (forall endpoint, redirect_to self = None -> route self = Some endpoint ->
        post self args request queue
        = (Return (Redirect endpoint (redirect_args self)), queue'))
  /\ (redirect_to self = None -> route self = None ->
        post self args request queue = (Raise (AttributeError "route"), queue')).
Proof.
  intros Hhtml Hhandle.
  rewrite (post_html_mode _ _ _ _ Hhtml), (post_html_returns _ _ _ _ _ _ Hhandle).
  split; [|split].
  - now intros target ->.
  - now intros endpoint -> ->.
  - now intros -> ->.
Qed.

(** C2. A subclass that overrides [handle_post] and sets neither
    [redirect_to] nor [route]: its POST in HTML mode runs [handle_post],
    which returns after flashing, and then fails on [self.route] instead of
    redirecting back to the same route. *)
Theorem post_html_without_target_raises :
  _is_json browser_request = false
  /\ handle_post Saver (FormValues (form browser_request)) no_args
       browser_request []
     = (Return ∅, [("notification", "Saved|success")])
  /\ redirect_to Saver = None
  /\ post Saver no_args browser_request []
     = (Raise (AttributeError "route"), [("notification", "Saved|success")]).
Proof. repeat split. Qed.

(** C5. A POST in JSON mode passes the parsed body to [handle_post]; when
    the envelope it returns has the key [payload], that payload is the JSON
    body, otherwise the body is an object with the one key [message]; the
    status is the envelope's [status_code], 200 when it has none. *)
Theorem post_json_response (self : AppRouteView) (args : call_args)
    (request : Request) (queue queue' : list flashed) (vals : value)
    (result : gmap string value) :
  _is_json request = true ->
  json request = Return vals ->
  handle_post self (JsonValues vals) args request queue = (Return result, queue') ->
  exists body status,
    post self args request queue = (Return (JsonResponse body status), queue')
    /\ (forall payload, result !! "payload" = Some payload -> body = payload)
    /\ (result !! "payload" = None ->
        exists message, body = VDict {[ "message" := message ]}
          /\ (forall m, result !! "message" = Some m -> message = m))
    /\ (forall code, result !! "status_code" = Some code -> status = code)
    /\ (result !! "status_code" = None -> status = VInt 200).
Proof.
  intros Hjs Hbody Hhandle. eexists _, _. split.
  - rewrite (post_json_mode _ _ _ _ Hjs).
    exact (post_json_returns _ _ _ _ _ _ _ Hbody Hhandle).
  - split; [|split; [|split]].
    + now intros payload ->.
    + intros ->. eexists. split; [reflexivity|]. apply dict_get_present.
    + apply dict_get_present.
    + apply dict_get_absent.
Qed.

Lemma post_json_response_witness :
  exists body status,
    post Saver no_args api_request [] = (Return (JsonResponse body status), [])
    /\ (forall payload,
          ({[ "payload" := VDict {[ "id" := VInt 7 ]};
              "status_code" := VInt 200 ]} : gmap string value) !! "payload"
          = Some payload -> body = payload)
    /\ (forall code,
          ({[ "payload" := VDict {[ "id" := VInt 7 ]};
              "status_code" := VInt 200 ]} : gmap string value) !! "status_code"
          = Some code -> status = code).
Proof.
  destruct (post_json_response Saver no_args api_request [] []
              (VDict {[ "device_name" := VStr "lamp" ]})
              {[ "payload" := VDict {[ "id" := VInt 7 ]};
                 "status_code" := VInt 200 ]})
    as (body & status & Hpost & Hpayload & _ & Hcode & _).
  - reflexivity.
  - reflexivity.
  - reflexivity.
  - exists body, status. auto.
Defined.

(** C10. A POST in JSON mode whose envelope has neither the key [payload]
    nor the key [message], such as the empty envelope, is answered with the
    body [{"message": "no output"}], with status 200 unless the envelope
    has a [status_code]. *)
Theorem post_json_no_output (self : AppRouteView) (args : call_args)
    (request : Request) (queue queue' : list flashed) (vals : value)
    (result : gmap string value) :
  _is_json request = true ->
  json request = Return vals ->
  handle_post self (JsonValues vals) args request queue = (Return result, queue') ->
  result !! "payload" = None ->
  result !! "message" = None ->
  exists status,
    post self args request queue
    = (Return (JsonResponse (VDict {[ "message" := VStr "no output" ]}) status),
       queue')
    /\ (result !! "status_code" = None -> status = VInt 200)
    /\ (forall code, result !! "status_code" = Some code -> status = code)
    /\ (result = ∅ -> status = VInt 200).
Proof.
  intros Hjs Hbody Hhandle Hpayload Hmessage. eexists. split.
  - rewrite (post_json_mode _ _ _ _ Hjs),
      (post_json_returns _ _ _ _ _ _ _ Hbody Hhandle), Hpayload.
    now rewrite (dict_get_absent _ _ _ Hmessage).
  - split; [|split].
    + apply dict_get_absent.
    + apply dict_get_present.
    + now intros ->.
Qed.

Lemma post_json_no_output_witness :
  exists status,
    post Silent no_args api_request []
    = (Return (JsonResponse (VDict {[ "message" := VStr "no output" ]}) status), [])
    /\ status = VInt 200.
Proof.
  destruct (post_json_no_output Silent no_args api_request [] []
              (VDict {[ "device_name" := VStr "lamp" ]}) ∅)
    as (status & Hpost & Hdefault & _).
  - reflexivity.
  - reflexivity.
  - reflexivity.
  - reflexivity.
  - reflexivity.
  - exists status. split; [exact Hpost | now apply Hdefault].
Defined.

(** C6. A GET in JSON mode answers with the mapping [populate] returned as
    the JSON body, with the status under that mapping's key [status_code]
    when it has one and 200 otherwise. *)
Theorem get_json_response (self : AppRouteView) (args : call_args)
    (request : Request) (queue queue' : list flashed)
    (vals : gmap string value) :
  _is_json request = true ->
  populate self args request queue = (Return vals, queue') ->
  exists status,
    get self args request queue
    = (Return (JsonResponse (VDict vals) status), queue')
    /\ (forall code, vals !! "status_code" = Some code -> status = code)
    /\ (vals !! "status_code" = None -> status = VInt 200).
Proof.
  intros Hjs Hpop. eexists. split; [|split].
  - rewrite (get_json_mode _ _ _ _ Hjs). exact (get_json_returns _ _ _ _ _ _ Hpop).
  - apply dict_get_present.
  - apply dict_get_absent.
Qed.

Lemma get_json_response_witness :
  get Index no_args api_request []
  = (Return (JsonResponse
               (VDict {[ "message" := VStr "Hello World!";
                         "list" := VList [VStr "eggs"; VStr "milk"; VStr "bread"] ]})
               (VInt 200)),
     []).
Proof.
  destruct (get_json_response Index no_args api_request [] []
              {[ "message" := VStr "Hello World!";
                 "list" := VList [VStr "eggs"; VStr "milk"; VStr "bread"] ]})
    as (status & Hget & _ & Hdefault).
  - reflexivity.
  - reflexivity.
  - rewrite Hget, Hdefault; reflexivity.
Defined.

(** C7, as the specification words it, fails: the class as written answers
    a GET in JSON mode with the empty object, which carries neither key. *)
Lemma json_body_with_neither_key :
  _is_json api_request = true
  /\ get base no_args api_request []
     = (Return (JsonResponse (VDict ∅) (VInt 200)), [])
  /\ exactly_one_of_payload_message (VDict ∅) = false
  /\ ~ json_bodies_carry_exactly_one.
Proof.
  split; [reflexivity|]. split; [reflexivity|]. split; [reflexivity|].
  intros Hall.
  specialize (Hall base no_args api_request [] (VDict ∅) (VInt 200) []
                eq_refl (or_introl eq_refl)).
  discriminate Hall.
Qed.

(** C7, amended. In JSON mode every envelope [category_response] returns
    has exactly one of the keys [payload] and [message]; the body of a
    JSON write response is the envelope's payload itself when the envelope
    has one, and otherwise an object whose one key is [message]; the body
    of a JSON read response is the mapping [populate] returned, whatever
    its keys. *)
Theorem json_response_shapes (self : AppRouteView) (args : call_args)
    (request : Request) (queue queue' : list flashed) :
  _is_json request = true ->
  (forall message status_code category payload flash_category,
     exists envelope,
       category_response message status_code category payload flash_category
         request queue
       = (Return envelope, queue)
       /\ xorb (contains "payload" envelope) (contains "message" envelope) = true)
  /\ (forall vals result,
        json request = Return vals ->
        handle_post self (JsonValues vals) args request queue
        = (Return result, queue') ->
        exists body status,
          post self args request queue
          = (Return (JsonResponse body status), queue')
          /\ (result !! "payload" = Some body
              \/ (result !! "payload" = None
                  /\ (exists message, body = VDict {[ "message" := message ]})
                  /\ exactly_one_of_payload_message body = true)))
  /\ (forall vals,
        populate self args request queue = (Return vals, queue') ->
        exists status,
          get self args request queue
          = (Return (JsonResponse (VDict vals) status), queue')).
Proof.
  intros Hjs. split; [|split].
  - intros message status_code category payload flash_category.
    eexists. split; [now apply category_response_json_mode|].
    destruct (negb (is_None payload)); reflexivity.
  - intros vals result Hbody Hhandle. eexists _, _. split.
    + rewrite (post_json_mode _ _ _ _ Hjs).
      exact (post_json_returns _ _ _ _ _ _ _ Hbody Hhandle).
    + destruct (result !! "payload") as [payload|]; [now left | right].
      split; [reflexivity|]. split; [now eexists | reflexivity].
  - intros vals Hpop. eexists.
    rewrite (get_json_mode _ _ _ _ Hjs). exact (get_json_returns _ _ _ _ _ _ Hpop).
Qed.

Lemma json_response_shapes_witness :
  exists body status,
    post Saver no_args api_request [] = (Return (JsonResponse body status), []).
Proof.
  destruct (json_response_shapes Saver no_args api_request [] [] eq_refl)
    as (_ & Hwrite & _).
  destruct (Hwrite (VDict {[ "device_name" := VStr "lamp" ]})
              {[ "payload" := VDict {[ "id" := VInt 7 ]};
                 "status_code" := VInt 200 ]} eq_refl eq_refl)
    as (body & status & Hpost & _).
  now exists body, status.
Defined.



(** * Further properties of the code *)

(** ** Negotiation over any Accept header *)

Lemma insert_range_In x r l :
  In x (Accept.insert_range r l) <-> x = r \/ In x l.
Proof.
  induction l as [|y l IH]; cbn [Accept.insert_range In].
  - intuition congruence.
  - destruct (Accept.key_ltb _ _); cbn [In]; [rewrite IH|]; intuition congruence.
Qed.

Lemma sort_ranges_In x l : In x (Accept.sort_ranges l) <-> In x l.
Proof.
  unfold Accept.sort_ranges. induction l as [|y l IH]; [reflexivity|].
  cbn [foldr In]. rewrite insert_range_In, IH. intuition congruence.
Qed.

Lemma best_single_match_cover server_item client item q :
  Accept.best_single_match server_item client = Some (item, q) ->
  In (item, q) client /\ Accept.value_matches server_item item = true.
Proof. intros H. exact (find_some _ _ H). Qed.

Lemma best_match_from_cons server_item rest client best_quality
    best_specificity result :
  Accept.best_match_from (server_item :: rest) client best_quality
    best_specificity result
  = match Accept.best_single_match server_item client with
    | None =>
        Accept.best_match_from rest client best_quality best_specificity result
    | Some (client_item, quality) =>
        if (quality <=? 0)%Z || (quality <? best_quality)%Z
        then Accept.best_match_from rest client best_quality best_specificity
               result
        else if (best_quality <? quality)%Z
                || match Accept.tuple_compare best_specificity
                           (Accept.specificity client_item) with
                   | Lt => true
                   | _ => false
                   end
        then Accept.best_match_from rest client quality
               (Accept.specificity client_item) (Some server_item)
        else Accept.best_match_from rest client best_quality best_specificity
               result
    end.
Proof. reflexivity. Qed.

(** The step for the candidate [text/html] never answers
    [application/json] unless that was the answer before. *)
Lemma html_step_keeps_out_json client best_quality best_specificity :
  Accept.best_match_from ["text/html"] client best_quality best_specificity None
  <> Some "application/json".
Proof.
  cbn [Accept.best_match_from].
  destruct (Accept.best_single_match _ _) as [[item q]|]; [|discriminate].
  destruct (_ || _); [discriminate|]. destruct (_ || _); discriminate.
Qed.

(** X1. A request without a JSON content type whose Accept header has no
    range that covers [application/json] with a positive quality is
    classified as HTML, whatever else it lists. *)
Theorem no_json_range_means_html (request : Request) :
  is_json request = false ->
  (forall item q, In (item, q) (accept_mimetypes request) ->
     Accept.value_matches "application/json" item = false \/ (q <= 0)%Z) ->
  _is_json request = false.
Proof.
  intros Hct Hnone. apply not_true_is_false. intros Hjs.
  apply (is_json_by_accept request Hct) in Hjs.
  unfold Accept.best_match, MIMETYPES in Hjs.
  rewrite best_match_from_cons in Hjs.
  destruct (Accept.best_single_match "application/json" _)
    as [[item q]|] eqn:Hsel.
  - apply best_single_match_cover in Hsel as [Hin Hcover].
    apply (proj1 (sort_ranges_In _ _)) in Hin.
    destruct (Hnone item q Hin) as [Hno | Hq]; [congruence|].
    replace (q <=? 0)%Z with true in Hjs by (symmetry; apply Z.leb_le; lia).
    cbn [orb] in Hjs. now apply html_step_keeps_out_json in Hjs.
  - now apply html_step_keeps_out_json in Hjs.
Qed.

Lemma no_json_range_means_html_witness : _is_json browser_request = false.
Proof.
  apply (no_json_range_means_html browser_request); [reflexivity|].
  intros item q [Heq | []]. injection Heq as <- <-. now left.
Defined.

Lemma tuple_compare_refl (a : list Z) : Accept.tuple_compare a a = Eq.
Proof.
  induction a as [|x a IH]; [reflexivity|].
  cbn [Accept.tuple_compare]. now rewrite Z.compare_refl.
Qed.

(** X2. For a request without a JSON content type whose Accept header is a
    single range, the classification is JSON exactly when that range has a
    positive quality and covers [application/json]: a lone wildcard, which
    covers [text/html] as well, goes to JSON, the first candidate. *)
Theorem single_range_negotiation (request : Request) (item : string) (q : Z) :
  is_json request = false ->
  accept_mimetypes request = [(item, q)] ->
  _is_json request = true
  <-> (0 < q)%Z /\ Accept.value_matches "application/json" item = true.
Proof.
  intros Hct Hacc. rewrite (is_json_by_accept request Hct), Hacc.
  unfold Accept.best_match, MIMETYPES.
  change (Accept.sort_ranges [(item, q)]) with [(item, q)].
  cbn [Accept.best_match_from]. unfold Accept.best_single_match.
  cbn [find fst].
  destruct (Accept.value_matches "application/json" item) eqn:Hjson.
  - destruct (Z.ltb_spec 0 q) as [Hpos | Hneg].
    + replace (q <=? 0)%Z with false by (symmetry; apply Z.leb_gt; lia).
      replace (q <? -1000)%Z with false by (symmetry; apply Z.ltb_ge; lia).
      replace (-1000 <? q)%Z with true by (symmetry; apply Z.ltb_lt; lia).
      cbn [orb]. split; [now intros _|]. intros _.
      destruct (Accept.value_matches "text/html" item); [|reflexivity].
      replace (q <=? 0)%Z with false by (symmetry; apply Z.leb_gt; lia).
      rewrite Z.ltb_irrefl, tuple_compare_refl. reflexivity.
    + replace (q <=? 0)%Z with true by (symmetry; apply Z.leb_le; lia).
      cbn [orb]. split; [|intros [Hpos _]; lia].
      intros H. exfalso. revert H.
      destruct (Accept.value_matches "text/html" item); [|discriminate].
      destruct (_ || _); [discriminate|]. destruct (_ || _); discriminate.
  - split; [|intros [_ H]; discriminate].
    intros H. exfalso. revert H.
    destruct (Accept.value_matches "text/html" item); [|discriminate].
    destruct (_ || _); [discriminate|]. destruct (_ || _); discriminate.
Qed.

Lemma single_range_negotiation_witness : _is_json wildcard_request = true.
Proof.
  apply (single_range_negotiation wildcard_request "*/*" 1000 eq_refl eq_refl).
  split; [lia | reflexivity].
Defined.

(** ** [category_response] and [response_manager] *)

Lemma category_response_html_run message status_code category payload
    flash_category request queue :
  _is_json request = false ->
  category_response message status_code category payload flash_category
    request queue
  = (Return ∅,
     queue ++ [(flash_category,
                PyStr.format_bar message
                  (flash_category_of category status_code))]).
Proof. apply category_response_html_mode. Qed.

Lemma derived_category_cases (status_code : Z) :
  In (flash_category_of None status_code) ["success"; "warning"; "danger"].
Proof.
  unfold flash_category_of.
  destruct (500 <=? status_code)%Z; [cbn; tauto|].
  destruct (400 <=? status_code)%Z; cbn; tauto.
Qed.

(** X4. Without an explicit category the category that is flashed is one
    of ["success"], ["warning"] and ["danger"], for every status code. *)
Theorem derived_category_is_documented (request : Request)
    (queue : list flashed) (message : string) (status_code : Z)
    (payload : value) (flash_category : string) :
  _is_json request = false ->
  exists category,
    In category ["success"; "warning"; "danger"]
    /\ category_response message status_code None payload flash_category
         request queue
       = (Return ∅,
          queue ++ [(flash_category, PyStr.format_bar message category)]).
Proof.
  intros Hhtml. exists (flash_category_of None status_code). split.
  - apply derived_category_cases.
  - now apply category_response_html_run.
Qed.

Lemma derived_category_is_documented_witness :
  exists category,
    In category ["success"; "warning"; "danger"]
    /\ category_response "Teapot" 418 None VNone "notification"
         browser_request []
       = (Return ∅, [("notification", PyStr.format_bar "Teapot" category)]).
Proof.
  apply (derived_category_is_documented browser_request [] "Teapot" 418 VNone
           "notification").
  reflexivity.
Defined.

(** X5. In JSON mode neither the category nor the flash channel has any
    effect: calls that differ only in them give the same envelope and
    leave the same queue, so every [response_manager(channel)] answers a
    JSON client alike. *)
Theorem json_mode_ignores_category_and_channel (request : Request)
    (queue : list flashed) (message : string) (status_code : Z)
    (payload : value) (category category' : option string)
    (channel channel' : string) :
  _is_json request = true ->
  category_response message status_code category payload channel request queue
  = category_response message status_code category' payload channel'
      request queue
  /\ response_manager channel message status_code category payload
       request queue
     = response message status_code category' payload request queue.
Proof.
  intros Hjs. unfold response, response_manager.
  now rewrite !category_response_json_mode by assumption.
Qed.

Lemma json_mode_ignores_category_and_channel_witness :
  response_manager "alerts" "Saved" 200 (Some "danger") VNone api_request []
  = response "Saved" 200 None VNone api_request [].
Proof.
  apply (json_mode_ignores_category_and_channel api_request [] "Saved" 200
           VNone (Some "danger") None "alerts" "alerts").
  reflexivity.
Defined.

(** X6. In HTML mode the payload is dropped: calls that differ only in
    their payload flash the same message and return the same empty
    envelope; with an explicit category the status code is dropped too. *)
Theorem html_mode_ignores_payload (request : Request) (queue : list flashed)
    (message : string) (status_code status_code' : Z)
    (category : option string) (given : string) (payload payload' : value)
    (channel : string) :
  _is_json request = false ->
  category_response message status_code category payload channel request queue
  = category_response message status_code category payload' channel
      request queue
  /\ category_response message status_code (Some given) payload channel
       request queue
     = category_response message status_code' (Some given) payload' channel
         request queue.
Proof.
  intros Hhtml. now rewrite !category_response_html_run by assumption.
Qed.

Lemma html_mode_ignores_payload_witness :
  category_response "Saved" 200 None (VDict {[ "id" := VInt 7 ]})
    "notification" browser_request []
  = category_response "Saved" 200 None VNone "notification" browser_request [].
Proof.
  apply (html_mode_ignores_payload browser_request [] "Saved" 200 200 None
           "info" (VDict {[ "id" := VInt 7 ]}) VNone "notification").
  reflexivity.
Defined.

(** X7. Two calls in a row in HTML mode leave both messages in the queue,
    in the order of the calls and after the messages queued before, each
    on its own channel. *)
Theorem notifications_queue_in_call_order (request : Request)
    (queue : list flashed) (m1 m2 : string) (s1 s2 : Z)
    (c1 c2 : option string) (p1 p2 : value) (ch1 ch2 : string) :
  _is_json request = false ->
  (category_response m1 s1 c1 p1 ch1
     ≫= (fun _ => category_response m2 s2 c2 p2 ch2)) request queue
  = (Return ∅,
     queue ++ [(ch1, PyStr.format_bar m1 (flash_category_of c1 s1));
               (ch2, PyStr.format_bar m2 (flash_category_of c2 s2))]).
Proof.
  intros Hhtml.
  run_bind (category_response_html_run m1 s1 c1 p1 ch1 request queue Hhtml).
  rewrite category_response_html_run by assumption.
  now rewrite <- app_assoc.
Qed.

Lemma notifications_queue_in_call_order_witness :
  (response "Saved" 200 None VNone
     ≫= (fun _ => response_manager "errors" "Quota exceeded" 507 None VNone))
    browser_request [("notification", "Welcome|success")]
  = (Return ∅,
     [("notification", "Welcome|success");
      ("notification", "Saved|success");
      ("errors", "Quota exceeded|danger")]).
Proof.
  apply (notifications_queue_in_call_order browser_request
           [("notification", "Welcome|success")] "Saved" "Quota exceeded"
           200 507 None None VNone VNone "notification" "errors").
  reflexivity.
Defined.

(** ** The encoding [message|category] in general *)

Lemma split_not_nil (sep : ascii) (s : string) : PyStr.split sep s <> [].
Proof.
  destruct s as [|c s]; cbn [PyStr.split]; [discriminate|].
  destruct (Ascii.eqb c sep); [discriminate|].
  destruct (PyStr.split sep s); discriminate.
Qed.

Lemma split_one_field (sep : ascii) (s x : string) :
  PyStr.split sep s = [x] -> PyStr.has_char sep s = false.
Proof.
  revert x. induction s as [|c s IH]; intros x; [reflexivity|].
  cbn [PyStr.split PyStr.has_char]. destruct (Ascii.eqb c sep).
  - intros H. injection H as _ Hnil. now apply split_not_nil in Hnil.
  - destruct (PyStr.split sep s) as [|field fields] eqn:Hs.
    + now apply split_not_nil in Hs.
    + intros H. injection H as _ ->. cbn [orb]. now apply (IH field).
Qed.

(** X8. Splitting the flashed string [message|category] on the bar gives
    back the message and the category exactly when neither holds a bar;
    a message that holds one does not come back. *)
Theorem split_recovers_iff_no_bar (message category : string) :
  PyStr.split "|" (PyStr.format_bar message category) = [message; category]
  <-> PyStr.has_char "|" message = false
      /\ PyStr.has_char "|" category = false.
Proof.
  split; [|intros [Hm Hc]; now apply split_format_bar].
  unfold PyStr.format_bar. induction message as [|c message IH].
  - change (PyStr.split "|" (String "|" category) = [EmptyString; category]
            -> PyStr.has_char "|" EmptyString = false
               /\ PyStr.has_char "|" category = false).
    cbn [PyStr.split]. rewrite Ascii.eqb_refl. intros H.
    injection H as H. split; [reflexivity | now apply split_one_field in H].
  - change (PyStr.split "|" (String c (message +:+ "|" +:+ category))
            = [String c message; category]
            -> PyStr.has_char "|" (String c message) = false
               /\ PyStr.has_char "|" category = false).
    cbn [PyStr.split PyStr.has_char]. destruct (Ascii.eqb c "|").
    + discriminate.
    + destruct (PyStr.split "|" (message +:+ "|" +:+ category))
        as [|field fields] eqn:Hs; [discriminate|].
      intros H. injection H as -> ->. cbn [orb]. now apply IH.
Qed.

(** X9. For every message without a bar and every status code, the string
    that [category_response] flashes in HTML mode without an explicit
    category splits on the bar into that message and the derived
    category. *)
Theorem flashed_message_splits_back (request : Request)
    (queue : list flashed) (message : string) (status_code : Z)
    (payload : value) (channel : string) :
  _is_json request = false ->
  PyStr.has_char "|" message = false ->
  exists text,
    category_response message status_code None payload channel request queue
    = (Return ∅, queue ++ [(channel, text)])
    /\ PyStr.split "|" text = [message; flash_category_of None status_code].
Proof.
  intros Hhtml Hbar. eexists. split.
  - now apply category_response_html_run.
  - apply split_format_bar; [assumption|].
    unfold flash_category_of.
    destruct (500 <=? status_code)%Z; [reflexivity|].
    destruct (400 <=? status_code)%Z; reflexivity.
Qed.

Lemma flashed_message_splits_back_witness :
  exists text,
    category_response "Not found" 404 None VNone "notification"
      browser_request []
    = (Return ∅, [("notification", text)])
    /\ PyStr.split "|" text = ["Not found"; "warning"].
Proof.
  apply (flashed_message_splits_back browser_request [] "Not found" 404 VNone
           "notification"); reflexivity.
Defined.

(** ** Dispatch: which artifact, which errors *)

Lemma bind_inv_return {A B : Type} (m : M A) (k : A -> M B) request queue
    b queue' :
  (m ≫= k) request queue = (Return b, queue') ->
  exists a queue1,
    m request queue = (Return a, queue1)
    /\ k a request queue1 = (Return b, queue').
Proof.
  unfold mbind, M_bind. destruct (m request queue) as [[a|e] queue1].
  - intros H. now exists a, queue1.
  - discriminate.
Qed.

Lemma get_html_mode self args request queue :
  _is_json request = false ->
  get self args request queue = get_html self args request queue.
Proof. intros Hhtml. unfold get. run_ask. cbv beta. now rewrite Hhtml. Qed.

(** X10. For an instance whose subclass overrides only the hooks
    [handle_post], [populate] and [get_template_name], a POST that is
    answered at all is answered with a JSON body in JSON mode and with a
    redirect carrying [redirect_args] in HTML mode, to [redirect_to] or,
    without one, to the instance's [route]; it is never answered with a
    rendered template. *)
Theorem post_answers_by_mode (self : AppRouteView) (args : call_args)
    (request : Request) (queue queue' : list flashed) (r : http_response) :
  post self args request queue = (Return r, queue') ->
  (_is_json request = true -> exists body status, r = JsonResponse body status)
  /\ (_is_json request = false ->
      exists endpoint,
        r = Redirect endpoint (redirect_args self)
        /\ (redirect_to self = Some endpoint
            \/ (redirect_to self = None /\ route self = Some endpoint)))
  /\ (forall name context, r <> Rendered name context).
Proof.
  intros Hpost.
  assert (Hjson : _is_json request = true ->
                  exists body status, r = JsonResponse body status).
  { intros Hjs. rewrite (post_json_mode _ _ _ _ Hjs) in Hpost.
    unfold post_json in Hpost.
    apply bind_inv_return in Hpost as (vals & q1 & _ & Hpost).
    apply bind_inv_return in Hpost as (result & q2 & _ & Hpost).
    destruct (result !! "payload"); injection Hpost as <- _; eauto. }
  assert (Hhtml : _is_json request = false ->
                  exists endpoint,
                    r = Redirect endpoint (redirect_args self)
                    /\ (redirect_to self = Some endpoint
                        \/ (redirect_to self = None
                            /\ route self = Some endpoint))).
  { intros Hmode. rewrite (post_html_mode _ _ _ _ Hmode) in Hpost.
    unfold post_html in Hpost.
    apply bind_inv_return in Hpost as (vals & q1 & _ & Hpost).
    apply bind_inv_return in Hpost as (result & q2 & _ & Hpost).
    destruct (redirect_to self) as [target|].
    - injection Hpost as <- _. eauto.
    - unfold self_route in Hpost. destruct (route self) as [endpoint|].
      + injection Hpost as <- _. eauto.
      + discriminate. }
  split; [exact Hjson|]. split; [exact Hhtml|].
  intros name context ->. destruct (_is_json request).
  - destruct (Hjson eq_refl) as (? & ? & ?). discriminate.
  - destruct (Hhtml eq_refl) as (? & ? & _). discriminate.
Qed.

Lemma post_answers_by_mode_witness :
  post SaverHome no_args browser_request []
  = (Return (Redirect "index" {[ "tab" := VStr "devices" ]}),
     [("notification", "Saved|success")])
  /\ exists endpoint,
    Redirect "index" {[ "tab" := VStr "devices" ]}
    = Redirect endpoint (redirect_args SaverHome)
    /\ (redirect_to SaverHome = Some endpoint
        \/ (redirect_to SaverHome = None /\ route SaverHome = Some endpoint)).
Proof.
  destruct (post_answers_by_mode SaverHome no_args browser_request []
              [("notification", "Saved|success")]
              (Redirect "index" {[ "tab" := VStr "devices" ]}) eq_refl)
    as (_ & Hhtml & _).
  split; [reflexivity | exact (Hhtml eq_refl)].
Defined.

(** What [render_template] and [_render_template] do with a returned
    answer: the template was named and the loader knows it. *)
Lemma render_template_inv name context request queue r queue' :
  render_template name context request queue = (Return r, queue') ->
  exists n, name = Some n /\ r = Rendered n context
            /\ In n (templates request) /\ queue' = queue.
Proof.
  unfold render_template.
  destruct (contains "template_name_or_list" context); [discriminate|].
  destruct name as [n|]; [|discriminate].
  run_ask. cbv beta. destruct (existsb (String.eqb n) (templates request)) eqn:Hknown;
    [|discriminate].
  intros H. injection H as <- <-. exists n. repeat split.
  apply existsb_exists in Hknown as (n' & Hin & Heq).
  apply String.eqb_eq in Heq. now subst n'.
Qed.

(** X11. For an instance whose subclass overrides only the hooks
    [handle_post], [populate] and [get_template_name], a GET that is
    answered at all is answered with a JSON object in JSON mode and, in
    HTML mode, with the rendering of a template the loader knows; it is
    never answered with a redirect. *)
Theorem get_answers_by_mode (self : AppRouteView) (args : call_args)
    (request : Request) (queue queue' : list flashed) (r : http_response) :
  get self args request queue = (Return r, queue') ->
  (_is_json request = true ->
   exists vals status, r = JsonResponse (VDict vals) status)
  /\ (_is_json request = false ->
      exists name context,
        r = Rendered name context /\ In name (templates request))
  /\ (forall endpoint values, r <> Redirect endpoint values).
Proof.
  intros Hget.
  assert (Hjson : _is_json request = true ->
                  exists vals status, r = JsonResponse (VDict vals) status).
  { intros Hjs. rewrite (get_json_mode _ _ _ _ Hjs) in Hget.
    unfold get_json in Hget.
    apply bind_inv_return in Hget as (vals & q1 & _ & Hget).
    injection Hget as <- _. eauto. }
  assert (Hhtml : _is_json request = false ->
                  exists name context,
                    r = Rendered name context /\ In name (templates request)).
  { intros Hmode. rewrite (get_html_mode _ _ _ _ Hmode) in Hget.
    unfold get_html, _render_template in Hget.
    apply bind_inv_return in Hget as (context & q1 & _ & Hget).
    destruct (contains "self" context); [discriminate|].
    apply bind_inv_return in Hget as (name & q2 & _ & Hget).
    apply render_template_inv in Hget as (n & _ & -> & Hin & _). eauto. }
  split; [exact Hjson|]. split; [exact Hhtml|].
  intros endpoint values ->. destruct (_is_json request).
  - destruct (Hjson eq_refl) as (? & ? & ?). discriminate.
  - destruct (Hhtml eq_refl) as (? & ? & ? & _). discriminate.
Qed.

Lemma get_answers_by_mode_witness :
  get Index no_args browser_request []
  = (Return (Rendered "start.html"
               {[ "message" := VStr "Hello World!";
                  "list" := VList [VStr "eggs"; VStr "milk"; VStr "bread"] ]}),
     [])
  /\ exists name context,
    Rendered "start.html"
      {[ "message" := VStr "Hello World!";
         "list" := VList [VStr "eggs"; VStr "milk"; VStr "bread"] ]}
    = Rendered name context
    /\ In name (templates browser_request).
Proof.
  destruct (get_answers_by_mode Index no_args browser_request [] []
              (Rendered "start.html"
                 {[ "message" := VStr "Hello World!";
                    "list" := VList [VStr "eggs"; VStr "milk"; VStr "bread"] ]})
              eq_refl)
    as (_ & Hhtml & _).
  split; [reflexivity | exact (Hhtml eq_refl)].
Defined.

(** X12. An exception raised by [handle_post] leaves [post] as it is, on
    the HTML path and, once the body is parsed, on the JSON path: no
    response is built, and what [handle_post] flashed before raising stays
    queued. *)
Theorem handle_post_error_propagates (self : AppRouteView) (args : call_args)
    (request : Request) (queue queue' : list flashed) (e : exn) :
  (_is_json request = false ->
   handle_post self (FormValues (form request)) args request queue
   = (Raise e, queue') ->
   post self args request queue = (Raise e, queue'))
  /\ (_is_json request = true ->
      forall vals, json request = Return vals ->
      handle_post self (JsonValues vals) args request queue = (Raise e, queue') ->
      post self args request queue = (Raise e, queue')).
Proof.
  split.
  - intros Hhtml Hraise. rewrite (post_html_mode _ _ _ _ Hhtml).
    unfold post_html. run_ask. now apply bind_raise.
  - intros Hjs vals Hbody Hraise. rewrite (post_json_mode _ _ _ _ Hjs).
    unfold post_json. run_bind (request_json_run _ queue _ Hbody).
    now apply bind_raise.
Qed.

Lemma handle_post_error_propagates_witness :
  post Refusing no_args browser_request []
  = (Raise (Raised "Forbidden"), [("notification", "Denied|warning")]).
Proof.
  apply (proj1 (handle_post_error_propagates Refusing no_args browser_request
                  [] [("notification", "Denied|warning")] (Raised "Forbidden")));
    reflexivity.
Defined.

(** X13. An exception raised by [populate] leaves [get] as it is, in JSON
    mode and in HTML mode alike; in HTML mode [get_template_name] is not
    even consulted. *)
Theorem populate_error_propagates (self : AppRouteView) (args : call_args)
    (request : Request) (queue queue' : list flashed) (e : exn) :
  populate self args request queue = (Raise e, queue') ->
  get self args request queue = (Raise e, queue').
Proof.
  intros Hraise. destruct (_is_json request) eqn:Hmode.
  - rewrite (get_json_mode _ _ _ _ Hmode). unfold get_json.
    now apply bind_raise.
  - rewrite (get_html_mode _ _ _ _ Hmode). unfold get_html.
    now apply bind_raise.
Qed.

Lemma populate_error_propagates_witness :
  get Broken no_args browser_request [] = (Raise (Raised "database down"), [])
  /\ get Broken no_args api_request [] = (Raise (Raised "database down"), []).
Proof.
  split.
  - apply (populate_error_propagates Broken no_args browser_request [] []
             (Raised "database down")). reflexivity.
  - apply (populate_error_propagates Broken no_args api_request [] []
             (Raised "database down")). reflexivity.
Defined.

(** X14. In JSON mode a body that [request.json] rejects ends the POST
    with the parser's error before [handle_post] runs: the outcome is the
    same for every instance, whatever its [handle_post], and nothing is
    flashed. *)
Theorem malformed_body_skips_handle_post (self : AppRouteView)
    (args : call_args) (request : Request) (queue : list flashed) (e : exn) :
  _is_json request = true ->
  json request = Raise e ->
  post self args request queue = (Raise e, queue).
Proof.
  intros Hjs Hbody. rewrite (post_json_mode _ _ _ _ Hjs). unfold post_json.
  apply bind_raise. unfold request_json. now rewrite Hbody.
Qed.

Lemma malformed_body_skips_handle_post_witness :
  post Saver no_args malformed_request [] = (Raise BadRequest, []).
Proof.
  apply (malformed_body_skips_handle_post Saver no_args malformed_request []
           BadRequest); reflexivity.
Defined.



(** X16. A GET in HTML mode calls [render_template] with the mapping
    [populate] returned as the template's variables and with the name
    [get_template_name] gives, which is [template_name] unless the subclass
    overrides the method.  The answer is the rendering of that template
    when the loader knows it; without a name ([template_name] left at
    [None]) the GET fails with [TemplatesNotFound], with a name the loader
    does not know it fails with [TemplateNotFound], and with a variable
    called [self] or [template_name_or_list] it fails with [TypeError]. *)
Theorem get_html_renders_populate (self : AppRouteView) (args : call_args)
    (request : Request) (queue queue' queue'' : list flashed)
    (context : gmap string value) (name : option string) :
  _is_json request = false ->
  populate self args request queue = (Return context, queue') ->
  get_template_name self request queue' = (Return name, queue'') ->
  (get_template_name_override self = None ->
   name = template_name self /\ queue'' = queue')
  /\ (contains "self" context = true ->
      get self args request queue = (Raise TypeError, queue'))
  /\ (contains "self" context = false ->
      (contains "template_name_or_list" context = true ->
       get self args request queue = (Raise TypeError, queue''))
      /\ (contains "template_name_or_list" context = false ->
          (name = None ->
           get self args request queue = (Raise TemplatesNotFound, queue''))
          /\ (forall n, name = Some n -> In n (templates request) ->
              get self args request queue
              = (Return (Rendered n context), queue''))
          /\ (forall n, name = Some n -> ~ In n (templates request) ->
              get self args request queue
              = (Raise (TemplateNotFound n), queue'')))).
Proof.
  intros Hhtml Hpop Hname. split; [|split].
  - intros Hbase. unfold get_template_name in Hname. rewrite Hbase in Hname.
    injection Hname as <- <-. now split.
  - intros Hself. rewrite (get_html_mode _ _ _ _ Hhtml). unfold get_html.
    run_bind Hpop. unfold _render_template. now rewrite Hself.
  - intros Hself.
    assert (Hget : get self args request queue
                   = render_template name context request queue'').
    { rewrite (get_html_mode _ _ _ _ Hhtml). unfold get_html. run_bind Hpop.
      unfold _render_template. rewrite Hself. now run_bind Hname. }
    rewrite Hget. unfold render_template. split.
    + now intros ->.
    + intros ->. split; [now intros ->|]. split.
      * intros n -> Hin. run_ask. cbv beta.
        replace (existsb (String.eqb n) (templates request)) with true;
          [reflexivity|].
        symmetry. apply existsb_exists. exists n. split; [assumption|].
        apply String.eqb_refl.
      * intros n -> Hout. run_ask. cbv beta.
        destruct (existsb (String.eqb n) (templates request)) eqn:Hknown;
          [|reflexivity].
        apply existsb_exists in Hknown as (n' & Hin & Heq).
        apply String.eqb_eq in Heq. now subst n'.
Qed.

Lemma get_html_renders_populate_witness :
  get Index no_args browser_request []
  = (Return (Rendered "start.html"
               {[ "message" := VStr "Hello World!";
                  "list" := VList [VStr "eggs"; VStr "milk"; VStr "bread"] ]}),
     [])
  /\ get DynamicIndex no_args browser_request []
     = (Return (Rendered "mobile.html" {[ "message" := VStr "Hello World!" ]}),
        [])
  /\ get base no_args browser_request [] = (Raise TemplatesNotFound, [])
  /\ get Saver no_args browser_request []
     = (Raise (TemplateNotFound "save.html"), []).
Proof.
  destruct (get_html_renders_populate Index no_args browser_request [] [] []
              {[ "message" := VStr "Hello World!";
                 "list" := VList [VStr "eggs"; VStr "milk"; VStr "bread"] ]}
              (Some "start.html") eq_refl eq_refl eq_refl)
    as (_ & _ & Hindex).
  destruct (get_html_renders_populate DynamicIndex no_args browser_request
              [] [] [] {[ "message" := VStr "Hello World!" ]}
              (Some "mobile.html") eq_refl eq_refl eq_refl)
    as (_ & _ & Hdynamic).
  destruct (get_html_renders_populate base no_args browser_request [] [] []
              ∅ None eq_refl eq_refl eq_refl)
    as (_ & _ & Hbase).
  destruct (get_html_renders_populate Saver no_args browser_request [] [] []
              ∅ (Some "save.html") eq_refl eq_refl eq_refl)
    as (_ & _ & Hsaver).
  split; [|split; [|split]].
  - apply (proj2 (Hindex eq_refl) eq_refl); [reflexivity|]. now left.
  - apply (proj2 (Hdynamic eq_refl) eq_refl); [reflexivity|]. right. now left.
  - now apply (proj2 (Hbase eq_refl) eq_refl).
  - apply (proj2 (Hsaver eq_refl) eq_refl); [reflexivity|].
    intros [H | [H | []]]; discriminate.
Defined.



(** ** Negotiation for a browser's Accept header *)

(** The order of the sort keys. *)

Lemma tuple_compare_eq (a b : list Z) :
  Accept.tuple_compare a b = Eq -> a = b.
Proof.
  revert b. induction a as [|x a IH]; intros [|y b]; cbn [Accept.tuple_compare];
    try discriminate; [reflexivity|].
  destruct (Z.compare_spec x y) as [-> | Hlt | Hgt]; try discriminate.
  intros H. now rewrite (IH b H).
Qed.

Lemma tuple_compare_antisym (a b : list Z) :
  Accept.tuple_compare b a = CompOpp (Accept.tuple_compare a b).
Proof.
  revert b. induction a as [|x a IH]; intros [|y b]; cbn [Accept.tuple_compare];
    try reflexivity.
  rewrite (Z.compare_antisym x y).
  destruct (x ?= y)%Z; cbn [CompOpp]; [apply IH | reflexivity ..].
Qed.

Lemma tuple_compare_lt_trans (a b c : list Z) :
  Accept.tuple_compare a b = Lt -> Accept.tuple_compare b c = Lt ->
  Accept.tuple_compare a c = Lt.
Proof.
  revert b c. induction a as [|x a IH]; intros [|y b] [|z c];
    cbn [Accept.tuple_compare]; try discriminate; try reflexivity.
  destruct (Z.compare_spec x y) as [-> | Hxy | Hxy]; try discriminate.
  - destruct (y ?= z)%Z; try discriminate; [apply IH | reflexivity].
  - intros _. destruct (Z.compare_spec y z) as [-> | Hyz | Hyz];
      try discriminate; intros _.
    + now replace (x ?= z)%Z with Lt by (symmetry; apply Z.compare_lt_iff; lia).
    + now replace (x ?= z)%Z with Lt by (symmetry; apply Z.compare_lt_iff; lia).
Qed.

Lemma key_compare_refl (k : list Z * Z) : Accept.key_compare k k = Eq.
Proof.
  unfold Accept.key_compare. rewrite tuple_compare_refl. apply Z.compare_refl.
Qed.

Lemma key_compare_eq (k1 k2 : list Z * Z) :
  Accept.key_compare k1 k2 = Eq -> k1 = k2.
Proof.
  destruct k1 as [s1 q1], k2 as [s2 q2]. unfold Accept.key_compare. cbn [fst snd].
  destruct (Accept.tuple_compare s1 s2) eqn:Hs; try discriminate.
  intros Hq. apply tuple_compare_eq in Hs. apply Z.compare_eq in Hq.
  congruence.
Qed.

Lemma key_compare_antisym (k1 k2 : list Z * Z) :
  Accept.key_compare k2 k1 = CompOpp (Accept.key_compare k1 k2).
Proof.
  unfold Accept.key_compare. rewrite (tuple_compare_antisym (fst k1) (fst k2)).
  destruct (Accept.tuple_compare (fst k1) (fst k2)); cbn [CompOpp];
    [apply Z.compare_antisym | reflexivity ..].
Qed.

Lemma key_compare_lt_trans (k1 k2 k3 : list Z * Z) :
  Accept.key_compare k1 k2 = Lt -> Accept.key_compare k2 k3 = Lt ->
  Accept.key_compare k1 k3 = Lt.
Proof.
  unfold Accept.key_compare.
  destruct (Accept.tuple_compare (fst k1) (fst k2)) eqn:H12; try discriminate;
    destruct (Accept.tuple_compare (fst k2) (fst k3)) eqn:H23; try discriminate.
  - apply tuple_compare_eq in H12, H23. rewrite H12, H23, tuple_compare_refl.
    intros Ha Hb. rewrite Z.compare_lt_iff in *. lia.
  - apply tuple_compare_eq in H12. rewrite H12, H23. reflexivity.
  - apply tuple_compare_eq in H23. rewrite <- H23, H12. reflexivity.
  - now rewrite (tuple_compare_lt_trans _ _ _ H12 H23).
Qed.

(** "Not below" is transitive. *)
Lemma key_not_below_trans (k1 k2 k3 : list Z * Z) :
  Accept.key_ltb k1 k2 = false -> Accept.key_ltb k2 k3 = false ->
  Accept.key_ltb k1 k3 = false.
Proof.
  unfold Accept.key_ltb. intros H12 H23.
  destruct (Accept.key_compare k1 k3) eqn:H13; try reflexivity.
  destruct (Accept.key_compare k1 k2) eqn:Hc; try discriminate.
  - apply key_compare_eq in Hc. subst k2. now rewrite H13 in H23.
  - assert (Hlt : Accept.key_compare k2 k1 = Lt)
      by now rewrite key_compare_antisym, Hc.
    now rewrite (key_compare_lt_trans _ _ _ Hlt H13) in H23.
Qed.

Lemma key_below_not_above (k1 k2 : list Z * Z) :
  Accept.key_ltb k1 k2 = true -> Accept.key_ltb k2 k1 = false.
Proof.
  unfold Accept.key_ltb. rewrite (key_compare_antisym k1 k2).
  now destruct (Accept.key_compare k1 k2).
Qed.

(** The ranges of an [Accept] are in descending order of their keys. *)
Lemma sort_ranges_sorted (values : list (string * Z)) :
  StronglySorted
    (fun r r' => Accept.key_ltb (Accept.key r) (Accept.key r') = false)
    (Accept.sort_ranges values).
Proof.
  unfold Accept.sort_ranges. induction values as [|r values IH];
    [constructor|].
  cbn [foldr]. revert IH. generalize (foldr Accept.insert_range [] values).
  intros sorted. induction 1 as [|r' rest Hrest IH Hall];
    cbn [Accept.insert_range].
  - repeat constructor.
  - destruct (Accept.key_ltb (Accept.key r) (Accept.key r')) eqn:Hlt.
    + constructor; [exact IH|].
      apply Stdlib.Lists.List.Forall_forall. intros x Hx. apply insert_range_In in Hx as [-> | Hx].
      * now apply key_below_not_above.
      * rewrite Stdlib.Lists.List.Forall_forall in Hall. now apply Hall.
    + constructor; [now constructor|].
      constructor; [exact Hlt|].
      rewrite Stdlib.Lists.List.Forall_forall in Hall |- *. intros x Hx.
      exact (key_not_below_trans _ _ _ Hlt (Hall x Hx)).
Qed.

(** The range picked for a candidate is one that covers it and is not
    below any other range of the header that covers it. *)
Lemma best_single_match_greatest server_item values item q :
  In (item, q) values ->
  Accept.value_matches server_item item = true ->
  exists item' q',
    Accept.best_single_match server_item (Accept.sort_ranges values)
    = Some (item', q')
    /\ In (item', q') values
    /\ Accept.value_matches server_item item' = true
    /\ Accept.key_ltb (Accept.key (item', q')) (Accept.key (item, q)) = false.
Proof.
  intros Hin Hcover. apply (proj2 (sort_ranges_In _ _)) in Hin.
  assert (Hgoal : exists item' q',
    Accept.best_single_match server_item (Accept.sort_ranges values)
    = Some (item', q')
    /\ In (item', q') (Accept.sort_ranges values)
    /\ Accept.value_matches server_item item' = true
    /\ Accept.key_ltb (Accept.key (item', q')) (Accept.key (item, q)) = false).
  { pose proof (sort_ranges_sorted values) as Hsorted.
    revert Hin. induction Hsorted as [|[item0 q0] rest Hrest IH Hall];
      [intros []|].
    unfold Accept.best_single_match. cbn [find fst In].
    destruct (Accept.value_matches server_item item0) eqn:Hcover0.
    - intros Hin. exists item0, q0. split; [reflexivity|].
      split; [now left|]. split; [assumption|].
      destruct Hin as [<- | Hin].
      + unfold Accept.key_ltb. now rewrite key_compare_refl.
      + rewrite Stdlib.Lists.List.Forall_forall in Hall. exact (Hall _ Hin).
    - intros [Heq | Hin]; [congruence|].
      destruct (IH Hin) as (item' & q' & Hsel & Hin' & Hcover' & Hkey).
      exists item', q'. repeat split; try assumption. now right. }
  destruct Hgoal as (item' & q' & Hsel & Hin' & Hcover' & Hkey).
  exists item', q'. repeat split; try assumption.
  now apply (proj1 (sort_ranges_In _ _)).
Qed.

(** Lower-casing leaves the separators and the star alone. *)

Lemma lower_ascii_eqb_slash c :
  Ascii.eqb (PyStr.lower_ascii c) "/" = Ascii.eqb c "/".
Proof. destruct c as [[] [] [] [] [] [] [] []]; reflexivity. Qed.

Lemma lower_ascii_eqb_semi c :
  Ascii.eqb (PyStr.lower_ascii c) ";" = Ascii.eqb c ";".
Proof. destruct c as [[] [] [] [] [] [] [] []]; reflexivity. Qed.

Lemma lower_ascii_eqb_star c :
  Ascii.eqb (PyStr.lower_ascii c) "*" = Ascii.eqb c "*".
Proof. destruct c as [[] [] [] [] [] [] [] []]; reflexivity. Qed.

Lemma lower_ascii_is_space c :
  Accept.is_space (PyStr.lower_ascii c) = Accept.is_space c.
Proof. destruct c as [[] [] [] [] [] [] [] []]; reflexivity. Qed.

Lemma ws_then_semi_lower s :
  Accept.ws_then_semi (PyStr.lower s) = Accept.ws_then_semi s.
Proof.
  induction s as [|c s IH]; [reflexivity|].
  cbn [PyStr.lower Accept.ws_then_semi].
  now rewrite lower_ascii_eqb_semi, lower_ascii_is_space, IH.
Qed.

Lemma cons_head_lower c fields :
  map PyStr.lower (Accept.cons_head c fields)
  = Accept.cons_head (PyStr.lower_ascii c) (map PyStr.lower fields).
Proof. now destruct fields. Qed.

Lemma mime_split_lower mode s :
  Accept.mime_split mode (PyStr.lower s)
  = map PyStr.lower (Accept.mime_split mode s).
Proof.
  revert mode. induction s as [|c s IH]; intros mode; [reflexivity|].
  cbn [PyStr.lower Accept.mime_split].
  rewrite lower_ascii_eqb_slash, lower_ascii_eqb_semi, lower_ascii_is_space,
    ws_then_semi_lower.
  destruct mode.
  - destruct (Ascii.eqb c "/"); [cbn [map]; now rewrite IH|].
    destruct (Ascii.eqb c ";"); [cbn [map]; now rewrite IH|].
    destruct (_ && _); [apply IH|]. now rewrite cons_head_lower, IH.
  - destruct (Ascii.eqb c ";"); [cbn [map]; now rewrite IH | apply IH].
  - destruct (Accept.is_space c); [apply IH|].
    destruct (Ascii.eqb c "/"); [cbn [map]; now rewrite IH|].
    destruct (Ascii.eqb c ";"); [cbn [map]; now rewrite IH|].
    cbn [andb]. now rewrite cons_head_lower, IH.
Qed.

Lemma lower_eqb_star (part : string) :
  String.eqb (PyStr.lower part) "*" = String.eqb part "*".
Proof.
  destruct part as [|c [|c' part]]; [reflexivity | |].
  - cbn [PyStr.lower String.eqb]. now rewrite lower_ascii_eqb_star.
  - cbn [PyStr.lower String.eqb]. now rewrite lower_ascii_eqb_star.
Qed.

Lemma sorted_params_nil (params : list string) :
  Accept.sorted_params params = [] -> params = [].
Proof.
  destruct params as [|p params]; [reflexivity|].
  unfold Accept.sorted_params. cbn [foldr].
  destruct (foldr Accept.insert_param [] params) as [|p' rest];
    cbn [Accept.insert_param]; [discriminate|].
  destruct (String.leb p p'); discriminate.
Qed.

(** A range that covers [text/html] is the range [text/html] itself, in
    any case of letters, or a less specific one. *)
Lemma html_cover_specificity (item : string) :
  Accept.value_matches "text/html" item = true ->
  Accept.tuple_compare (Accept.specificity item) [1%Z; 1%Z] = Lt
  \/ Accept.specificity item = [1%Z; 1%Z].
Proof.
  unfold Accept.value_matches, Accept.specificity.
  destruct (negb (PyStr.has_char "/" item)); [discriminate|].
  change (Accept.normalize_mime "text/html") with ["text"; "html"].
  unfold Accept.normalize_mime. rewrite mime_split_lower.
  destruct (Accept.mime_split Accept.InField item) as [|t [|s params]];
    cbn [map]; try discriminate.
  rewrite !lower_eqb_star.
  change (String.eqb "text" "*") with false.
  change (String.eqb "html" "*") with false.
  cbn [andb orb negb].
  destruct (String.eqb t "*"), (String.eqb s "*"); cbn [andb orb negb];
    try discriminate; try (intros _; now left).
  intros H. apply andb_true_iff in H as [_ H].
  apply andb_true_iff in H as [_ H]. apply bool_decide_eq_true in H.
  change (Accept.sorted_params []) with (@nil string) in H.
  apply sorted_params_nil in H. destruct params; [now right | discriminate].
Qed.

(** X18. A request without a JSON content type whose Accept header lists
    [text/html] with a positive quality, and whose ranges that cover
    [application/json] all have a lower quality, is classified as HTML,
    wherever the ranges stand in the header: the wildcard at the end of a
    browser's header does not make the request JSON. *)
Theorem html_preferred_means_html (request : Request) (q0 : Z) :
  is_json request = false ->
  In ("text/html", q0) (accept_mimetypes request) ->
  (0 < q0)%Z ->
  (forall item q, In (item, q) (accept_mimetypes request) ->
     Accept.value_matches "application/json" item = true -> (q < q0)%Z) ->
  _is_json request = false.
Proof.
  intros Hct Hlisted Hq Hlower. apply not_true_is_false. intros Hjs.
  apply (is_json_by_accept request Hct) in Hjs.
  destruct (best_single_match_greatest "text/html" _ _ _ Hlisted eq_refl)
    as (item' & q' & Hsel & Hin' & Hcover' & Hkey).
  assert (Hq' : (q0 <= q')%Z).
  { unfold Accept.key_ltb, Accept.key_compare, Accept.key in Hkey.
    cbn [fst snd] in Hkey.
    change (Accept.specificity "text/html") with [1%Z; 1%Z] in Hkey.
    destruct (html_cover_specificity item' Hcover') as [Hlt | Heq].
    - now rewrite Hlt in Hkey.
    - rewrite Heq in Hkey. cbn [Accept.tuple_compare] in Hkey.
      rewrite Z.compare_refl in Hkey.
      destruct (Z.compare_spec q' q0); [lia | discriminate | lia]. }
  unfold Accept.best_match, MIMETYPES in Hjs.
  rewrite best_match_from_cons in Hjs.
  assert (Hstep : forall best_quality best_specificity result,
            (best_quality < q0)%Z ->
            Accept.best_match_from ["text/html"]
              (Accept.sort_ranges (accept_mimetypes request))
              best_quality best_specificity result
            = Some "text/html").
  { intros bq bs r Hbq. rewrite best_match_from_cons, Hsel.
    replace (q' <=? 0)%Z with false by (symmetry; apply Z.leb_gt; lia).
    replace (q' <? bq)%Z with false by (symmetry; apply Z.ltb_ge; lia).
    replace (bq <? q')%Z with true by (symmetry; apply Z.ltb_lt; lia).
    reflexivity. }
  destruct (Accept.best_single_match "application/json" _)
    as [[item q]|] eqn:Hjson.
  - apply best_single_match_cover in Hjson as [Hin Hcover].
    apply (proj1 (sort_ranges_In _ _)) in Hin.
    pose proof (Hlower item q Hin Hcover) as Hlt.
    destruct (_ || _).
    + rewrite Hstep in Hjs by lia. discriminate.
    + destruct (_ || _); rewrite Hstep in Hjs by lia; discriminate.
  - rewrite Hstep in Hjs by lia. discriminate.
Qed.

Lemma html_preferred_means_html_witness : _is_json chrome_request = false.
Proof.
  apply (html_preferred_means_html chrome_request 1000);
    [reflexivity | now left | lia |].
  intros item q Hin Hcover.
  repeat (destruct Hin as [Heq | Hin];
          [injection Heq as <- <-; first [discriminate Hcover | lia]|]).
  destruct Hin.
Defined.
